(** * Card: the validated playing-card object of [src/card.py]

    The module embeds the three enumerations [CardTypes], [CardSuitTypes],
    [CardRankTypes] and the class [Card] with its three property setters,
    its constructor and [__str__].

    Python objects are mutable and an exception leaves the object as it
    was at the [raise]; methods are therefore functions from the object
    to an outcome together with the object afterwards. *)

From Stdlib Require Import String List ZArith Bool DecimalString.
From Stdlib Require Import Lia.
Import ListNotations.
Local Open Scope string_scope.

(** ** Enumerations *)

Inductive CardTypes := STANDARD | JOKER | GUARANTEE.

Inductive CardSuitTypes := HEART | CLUB | SPADE | DIAMOND.

Inductive CardRankTypes :=
  ACE | TWO | THREE | FOUR | FIVE | SIX | SEVEN
| EIGHT | NINE | TEN | JACK | QUEEN | KING.

Definition CardTypes_name (t : CardTypes) : string :=
  match t with
  | STANDARD => "STANDARD" | JOKER => "JOKER" | GUARANTEE => "GUARANTEE"
  end.

Definition CardTypes_value (t : CardTypes) : string :=
  match t with
  | STANDARD => "standard" | JOKER => "joker" | GUARANTEE => "guarantee"
  end.

Definition CardSuitTypes_name (s : CardSuitTypes) : string :=
  match s with
  | HEART => "HEART" | CLUB => "CLUB" | SPADE => "SPADE"
  | DIAMOND => "DIAMOND"
  end.

Definition CardSuitTypes_value (s : CardSuitTypes) : string :=
  match s with
  | HEART => "heart" | CLUB => "club" | SPADE => "spade"
  | DIAMOND => "diamond"
  end.

Definition CardRankTypes_name (r : CardRankTypes) : string :=
  match r with
  | ACE => "ACE" | TWO => "TWO" | THREE => "THREE" | FOUR => "FOUR"
  | FIVE => "FIVE" | SIX => "SIX" | SEVEN => "SEVEN" | EIGHT => "EIGHT"
  | NINE => "NINE" | TEN => "TEN" | JACK => "JACK" | QUEEN => "QUEEN"
  | KING => "KING"
  end.

Definition CardRankTypes_value (r : CardRankTypes) : Z :=
  match r with
  | ACE => 1 | TWO => 2 | THREE => 3 | FOUR => 4 | FIVE => 5 | SIX => 6
  | SEVEN => 7 | EIGHT => 8 | NINE => 9 | TEN => 10 | JACK => 11
  | QUEEN => 12 | KING => 13
  end%Z.

(** ** Python values

    The setters accept any object.  The universe below holds the objects
    a caller plausibly passes: [None], strings, integers and the members
    of the three enumerations.  The enumerations are plain [Enum]s (no
    [str] or [int] mix-in), so a member equals only itself: the string
    ["heart"] is not [CardSuitTypes.HEART] and [1] is not
    [CardRankTypes.ACE]. *)

Inductive value :=
| PyNone
| PyStr (s : string)
| PyInt (z : Z)
| PyCardType (t : CardTypes)
| PySuit (s : CardSuitTypes)
| PyRank (r : CardRankTypes).

Definition CardTypes_eq_dec (a b : CardTypes) : {a = b} + {a <> b}.
Proof. decide equality. Defined.

Definition CardSuitTypes_eq_dec (a b : CardSuitTypes) : {a = b} + {a <> b}.
Proof. decide equality. Defined.

Definition CardRankTypes_eq_dec (a b : CardRankTypes) : {a = b} + {a <> b}.
Proof. decide equality. Defined.

Definition value_eq_dec (a b : value) : {a = b} + {a <> b}.
Proof.
  decide equality;
    [ apply string_dec | apply Z.eq_dec | apply CardTypes_eq_dec
    | apply CardSuitTypes_eq_dec | apply CardRankTypes_eq_dec ].
Defined.

(** [a == b] *)
Definition py_eq (a b : value) : bool :=
  if value_eq_dec a b then true else false.

(** [a != b] *)
Definition py_ne (a b : value) : bool := negb (py_eq a b).

(** [v is None] *)
Definition is_None (v : value) : bool :=
  match v with PyNone => true | _ => false end.

(** [v in l], for a list [l] *)
Definition py_in (v : value) (l : list value) : bool :=
  existsb (fun x => py_eq x v) l.

(** [f"{v}"]: the text an f-string inserts for [v]. *)
Definition format_value (v : value) : string :=
  match v with
  | PyNone => "None"
  | PyStr s => s
  | PyInt z => NilZero.string_of_int (Z.to_int z)
  | PyCardType t => "CardTypes." ++ CardTypes_name t
  | PySuit s => "CardSuitTypes." ++ CardSuitTypes_name s
  | PyRank r => "CardRankTypes." ++ CardRankTypes_name r
  end.

(** ** Exceptions

    Every [raise] of the class is a [ValueError]; the message records
    which [raise] it was and the values its f-string interpolates.
    Reading an attribute that an object does not have is an
    [AttributeError]. *)

Inductive message :=
| Invalid_card_type (val : value)
| Suit_missing_for_standard
| Suit_given_for_non_standard (val card_type : value)
| Invalid_suit_type (val : value)
| Rank_missing_for_standard
| Rank_given_for_non_standard (val card_type : value)
| Invalid_rank_type (val : value)
| Suit_or_Rank_empty (rank suit : value).

Inductive exn :=
| ValueError (m : message)
| AttributeError (attr : string).

(** The specification's two error kinds.  [InvalidState] is the
    [ValueError] of [__str__]; [InvalidAttribute] is a [ValueError] of a
    setter. *)
Definition InvalidState (e : exn) : bool :=
  match e with
  | ValueError (Suit_or_Rank_empty _ _) => true
  | _ => false
  end.

Definition InvalidAttribute (e : exn) : bool :=
  match e with
  | ValueError (Suit_or_Rank_empty _ _) => false
  | ValueError _ => true
  | AttributeError _ => false
  end.

(** ** The object and its methods *)

(** The instance attributes; [None] is an attribute not assigned yet. *)
Record Card := mkCard {
  _card_type : option value;
  _suit : option value;
  _rank : option value
}.

Inductive outcome (A : Type) :=
| Returned (a : A)
| Raised (e : exn).
Arguments Returned {A} a.
Arguments Raised {A} e.

Definition method (A : Type) : Type := Card -> outcome A * Card.

Definition ret {A} (a : A) : method A := fun self => (Returned a, self).

Definition raise {A} (e : exn) : method A := fun self => (Raised e, self).

Definition bind {A B} (m : method A) (k : A -> method B) : method B :=
  fun self =>
    match m self with
    | (Returned a, self') => k a self'
    | (Raised e, self') => (Raised e, self')
    end.

Declare Scope method_scope.
Delimit Scope method_scope with method.
Notation "x <- m ;; k" := (bind m (fun x => k))
  (at level 61, m at next level, right associativity) : method_scope.
Notation "m ;; k" := (bind m (fun _ => k))
  (at level 61, right associativity) : method_scope.
Local Open Scope method_scope.

Definition getattr (field : Card -> option value) (attr : string)
  : method value :=
  fun self =>
    match field self with
    | Some v => (Returned v, self)
    | None => (Raised (AttributeError attr), self)
    end.

Definition assign_card_type (v : value) : method unit :=
  fun self => (Returned tt, mkCard (Some v) (_suit self) (_rank self)).

Definition assign_suit (v : value) : method unit :=
  fun self => (Returned tt, mkCard (_card_type self) (Some v) (_rank self)).

Definition assign_rank (v : value) : method unit :=
  fun self => (Returned tt, mkCard (_card_type self) (_suit self) (Some v)).

Definition ALLOWED_CARD_TYPES : list value :=
  [PyCardType GUARANTEE; PyCardType JOKER; PyCardType STANDARD].

Definition ALLOWED_SUIT_TYPES : list value :=
  [PySuit CLUB; PySuit DIAMOND; PySuit HEART; PySuit SPADE].

Definition ALLOWED_RANK_TYPES : list value :=
  [PyRank ACE; PyRank TWO; PyRank THREE; PyRank FOUR; PyRank FIVE;
   PyRank SIX; PyRank SEVEN; PyRank EIGHT; PyRank NINE; PyRank TEN;
   PyRank JACK; PyRank QUEEN; PyRank KING].

(** The property getters. *)
Definition card_type : method value := getattr _card_type "_card_type".
Definition suit : method value := getattr _suit "_suit".
Definition rank : method value := getattr _rank "_rank".

(** [@card_type.setter] *)
Definition set_card_type (val : value) : method unit :=
  if negb (py_in val ALLOWED_CARD_TYPES) then
    raise (ValueError (Invalid_card_type val))
  else
    assign_card_type val ;;
    if py_ne val (PyCardType STANDARD) then
      assign_rank PyNone ;;
      assign_suit PyNone
    else ret tt.

(** [@suit.setter] *)
Definition set_suit (val : value) : method unit :=
  t1 <- card_type ;;
  if py_eq t1 (PyCardType STANDARD) && is_None val then
    raise (ValueError Suit_missing_for_standard)
  else
    t2 <- card_type ;;
    if py_ne t2 (PyCardType STANDARD) && negb (is_None val) then
      t3 <- card_type ;;
      raise (ValueError (Suit_given_for_non_standard val t3))
    else if negb (py_in val ALLOWED_SUIT_TYPES) then
      raise (ValueError (Invalid_suit_type val))
    else assign_suit val.

(** [@rank.setter] *)
Definition set_rank (val : value) : method unit :=
  t1 <- card_type ;;
  if py_eq t1 (PyCardType STANDARD) && is_None val then
    raise (ValueError Rank_missing_for_standard)
  else
    t2 <- card_type ;;
    if py_ne t2 (PyCardType STANDARD) && negb (is_None val) then
      t3 <- card_type ;;
      raise (ValueError (Rank_given_for_non_standard val t3))
    else if negb (py_in val ALLOWED_RANK_TYPES) then
      raise (ValueError (Invalid_rank_type val))
    else assign_rank val.

(** [v.name] and [v.value]: only enumeration members have them. *)
Definition attr_name (v : value) : method value :=
  match v with
  | PyCardType t => ret (PyStr (CardTypes_name t))
  | PySuit s => ret (PyStr (CardSuitTypes_name s))
  | PyRank r => ret (PyStr (CardRankTypes_name r))
  | _ => raise (AttributeError "name")
  end.

Definition attr_value (v : value) : method value :=
  match v with
  | PyCardType t => ret (PyStr (CardTypes_value t))
  | PySuit s => ret (PyStr (CardSuitTypes_value s))
  | PyRank r => ret (PyInt (CardRankTypes_value r))
  | _ => raise (AttributeError "value")
  end.

(** [__str__]; [or] reads [self.suit] only when the rank is not [None]. *)
Definition __str__ : method string :=
  t <- card_type ;;
  if py_eq t (PyCardType STANDARD) then
    r <- rank ;;
    blank <- (if is_None r then ret true
              else s <- suit ;; ret (is_None s)) ;;
    if (blank : bool) then
      r' <- rank ;;
      s' <- suit ;;
      raise (ValueError (Suit_or_Rank_empty r' s'))
    else
      r' <- rank ;;
      n <- attr_name r' ;;
      s' <- suit ;;
      v <- attr_value s' ;;
      ret (format_value n ++ " of " ++ format_value v)
  else
    t' <- card_type ;;
    v <- attr_value t' ;;
    ret (format_value v).

(** [__init__(self, suit, rank, card_type)]: the type first, then the
    suit, then the rank. *)
Definition __init__ (suit rank card_type : value) : method unit :=
  set_card_type card_type ;;
  set_suit suit ;;
  set_rank rank.

(** The object [__init__] receives: no instance attribute yet. *)
Definition new_object : Card := mkCard None None None.

(** [Card(suit, rank, card_type)]: the object when [__init__] returns,
    the exception when it raises. *)
Definition Card_call (suit rank card_type : value) : outcome Card :=
  match __init__ suit rank card_type new_object with
  | (Returned _, self) => Returned self
  | (Raised e, _) => Raised e
  end.

(** The specification's [Construct(card_type, suit, rank)]. *)
Definition Construct (card_type suit rank : value) : outcome Card :=
  Card_call suit rank card_type.

(** The defaults of the keyword arguments. *)
Definition default_suit : value := PyNone.
Definition default_rank : value := PyNone.
Definition default_card_type : value := PyCardType STANDARD.

(** The specification's [ToDisplayString()]. *)
Definition ToDisplayString (c : Card) : outcome string := fst (__str__ c).

(** ** Cards a caller can hold

    A card is reachable when the constructor returned it, or a setter
    returned normally on a reachable card. *)
Inductive reachable : Card -> Prop :=
| reach_Construct t s r c :
    Construct t s r = Returned c -> reachable c
| reach_set_card_type v c c' :
    reachable c -> set_card_type v c = (Returned tt, c') -> reachable c'
| reach_set_suit v c c' :
    reachable c -> set_suit v c = (Returned tt, c') -> reachable c'
| reach_set_rank v c c' :
    reachable c -> set_rank v c = (Returned tt, c') -> reachable c'.

(** ** Predicates of the specification *)

(** [v] is a member of [CardTypes] / [CardSuitTypes] / [CardRankTypes]. *)
Definition is_CardType (v : value) : Prop := exists t, v = PyCardType t.
Definition is_Suit (v : value) : Prop := exists s, v = PySuit s.
Definition is_Rank (v : value) : Prop := exists r, v = PyRank r.

(** The invariant as the specification words it: the type is STANDARD
    exactly when suit and rank are both members of their enumerations,
    and it is not STANDARD exactly when both are null. *)
Definition spec_invariant (c : Card) : Prop :=
  (_card_type c = Some (PyCardType STANDARD) <->
     (exists s, _suit c = Some (PySuit s)) /\
     (exists r, _rank c = Some (PyRank r)))
  /\
  (_card_type c <> Some (PyCardType STANDARD) <->
     _suit c = Some PyNone /\ _rank c = Some PyNone).

(** The invariant the setters keep: all three attributes are assigned,
    the type is a [CardTypes] member, suit and rank are null on a card
    that is not STANDARD, and on a STANDARD card each of them is null or
    a member of its enumeration. *)
Definition card_invariant (c : Card) : Prop :=
  exists t s r,
    c = mkCard (Some (PyCardType t)) (Some s) (Some r) /\
    (t <> STANDARD -> s = PyNone /\ r = PyNone) /\
    (s = PyNone \/ is_Suit s) /\
    (r = PyNone \/ is_Rank r).

(** A STANDARD card whose suit or rank is null. *)
Definition blank_standard (c : Card) : Prop :=
  _card_type c = Some (PyCardType STANDARD) /\
  (_suit c = Some PyNone \/ _rank c = Some PyNone).

(** [ToDisplayString()] raises [InvalidState] on [c]. *)
Definition raises_InvalidState (c : Card) : Prop :=
  exists e, ToDisplayString c = Raised e /\ InvalidState e = true.

(** The STANDARD card with neither suit nor rank. *)
Definition the_blank_card : Card :=
  mkCard (Some (PyCardType STANDARD)) (Some PyNone) (Some PyNone).

(** A method that leaves the object as it found it, whether it returns
    or raises. *)
Definition read_only {A : Type} (m : method A) : Prop :=
  forall self, snd (m self) = self.

(** The card [Construct(STANDARD, s, r)] holds. *)
Definition standard_card (s : CardSuitTypes) (r : CardRankTypes) : Card :=
  mkCard (Some (PyCardType STANDARD)) (Some (PySuit s)) (Some (PyRank r)).

(** The card left by setting the type to [t], a type other than
    STANDARD. *)
Definition non_standard_card (t : CardTypes) : Card :=
  mkCard (Some (PyCardType t)) (Some PyNone) (Some PyNone).

(** ** Equality and membership *)

Lemma py_eq_spec a b : reflect (a = b) (py_eq a b).
Proof. unfold py_eq; destruct (value_eq_dec a b); constructor; assumption. Qed.

Lemma py_ne_spec a b : reflect (a <> b) (py_ne a b).
Proof.
  unfold py_ne; destruct (py_eq_spec a b); constructor; auto.
Qed.

Lemma is_None_spec v : reflect (v = PyNone) (is_None v).
Proof. destruct v; constructor; congruence. Qed.

Ltac by_members v :=
  destruct v as [ | ? | ? | [] | [] | [] ]; cbv;
  constructor;
  solve [ eexists; reflexivity | intros [? ?]; discriminate ].

Lemma in_ALLOWED_CARD_TYPES v :
  reflect (is_CardType v) (py_in v ALLOWED_CARD_TYPES).
Proof. by_members v. Qed.

Lemma in_ALLOWED_SUIT_TYPES v :
  reflect (is_Suit v) (py_in v ALLOWED_SUIT_TYPES).
Proof. by_members v. Qed.

Lemma in_ALLOWED_RANK_TYPES v :
  reflect (is_Rank v) (py_in v ALLOWED_RANK_TYPES).
Proof. by_members v. Qed.

(** ** The setters, case by case *)

Ltac step_ifs H :=
  repeat (rewrite ?H;
          match goal with
          | |- context [if ?b then _ else _] => destruct b; simpl
          end);
  rewrite ?H; try reflexivity.

Lemma set_card_type_member t c :
  set_card_type (PyCardType t) c =
  (Returned tt,
   if CardTypes_eq_dec t STANDARD
   then mkCard (Some (PyCardType t)) (_suit c) (_rank c)
   else mkCard (Some (PyCardType t)) (Some PyNone) (Some PyNone)).
Proof. destruct t; reflexivity. Qed.

Lemma set_card_type_other v c :
  ~ is_CardType v ->
  set_card_type v c = (Raised (ValueError (Invalid_card_type v)), c).
Proof.
  intros Hv; unfold set_card_type.
  destruct (in_ALLOWED_CARD_TYPES v); [contradiction | reflexivity].
Qed.

Lemma set_suit_unfold c ct v :
  _card_type c = Some ct ->
  set_suit v c =
  if py_eq ct (PyCardType STANDARD) && is_None v then
    (Raised (ValueError Suit_missing_for_standard), c)
  else if py_ne ct (PyCardType STANDARD) && negb (is_None v) then
    (Raised (ValueError (Suit_given_for_non_standard v ct)), c)
  else if negb (py_in v ALLOWED_SUIT_TYPES) then
    (Raised (ValueError (Invalid_suit_type v)), c)
  else (Returned tt, mkCard (Some ct) (Some v) (_rank c)).
Proof.
  intros H.
  unfold set_suit, bind, card_type, getattr, raise, assign_suit.
  step_ifs H.
Qed.

Lemma set_rank_unfold c ct v :
  _card_type c = Some ct ->
  set_rank v c =
  if py_eq ct (PyCardType STANDARD) && is_None v then
    (Raised (ValueError Rank_missing_for_standard), c)
  else if py_ne ct (PyCardType STANDARD) && negb (is_None v) then
    (Raised (ValueError (Rank_given_for_non_standard v ct)), c)
  else if negb (py_in v ALLOWED_RANK_TYPES) then
    (Raised (ValueError (Invalid_rank_type v)), c)
  else (Returned tt, mkCard (Some ct) (_suit c) (Some v)).
Proof.
  intros H.
  unfold set_rank, bind, card_type, getattr, raise, assign_rank.
  step_ifs H.
Qed.

Lemma set_suit_unassigned c v :
  _card_type c = None ->
  set_suit v c = (Raised (AttributeError "_card_type"), c).
Proof.
  intros H; unfold set_suit, bind, card_type, getattr; rewrite H; reflexivity.
Qed.

Lemma set_rank_unassigned c v :
  _card_type c = None ->
  set_rank v c = (Raised (AttributeError "_card_type"), c).
Proof.
  intros H; unfold set_rank, bind, card_type, getattr; rewrite H; reflexivity.
Qed.

(** A setter that returns has stored a member of its enumeration, and
    the suit and rank setters return on STANDARD cards only. *)
Lemma set_card_type_returns v c c' :
  set_card_type v c = (Returned tt, c') ->
  exists t, v = PyCardType t /\
    c' = if CardTypes_eq_dec t STANDARD
         then mkCard (Some v) (_suit c) (_rank c)
         else mkCard (Some v) (Some PyNone) (Some PyNone).
Proof.
  destruct (in_ALLOWED_CARD_TYPES v) as [[t ->] | Hn].
  - rewrite set_card_type_member; intros [= <-]; eauto.
  - rewrite set_card_type_other by assumption; intros [=].
Qed.

Lemma set_suit_returns v c c' :
  set_suit v c = (Returned tt, c') ->
  _card_type c = Some (PyCardType STANDARD) /\ is_Suit v /\
  c' = mkCard (_card_type c) (Some v) (_rank c).
Proof.
  destruct (_card_type c) as [ct |] eqn:Hct.
  - rewrite (set_suit_unfold c ct v Hct); unfold py_ne.
    destruct (py_eq_spec ct (PyCardType STANDARD)) as [Heq | Hne];
      cbn [andb negb].
    + destruct (is_None_spec v); [intros [=] |].
      destruct (in_ALLOWED_SUIT_TYPES v); cbn [negb]; [| intros [=]].
      intros [= <-]; subst ct; auto.
    + destruct (is_None_spec v) as [-> |]; cbn [negb]; [| intros [=]].
      destruct (in_ALLOWED_SUIT_TYPES PyNone) as [[m Hm] |]; cbn [negb];
        [discriminate Hm | intros [=]].
  - rewrite set_suit_unassigned by assumption; intros [=].
Qed.

Lemma set_rank_returns v c c' :
  set_rank v c = (Returned tt, c') ->
  _card_type c = Some (PyCardType STANDARD) /\ is_Rank v /\
  c' = mkCard (_card_type c) (_suit c) (Some v).
Proof.
  destruct (_card_type c) as [ct |] eqn:Hct.
  - rewrite (set_rank_unfold c ct v Hct); unfold py_ne.
    destruct (py_eq_spec ct (PyCardType STANDARD)) as [Heq | Hne];
      cbn [andb negb].
    + destruct (is_None_spec v); [intros [=] |].
      destruct (in_ALLOWED_RANK_TYPES v); cbn [negb]; [| intros [=]].
      intros [= <-]; subst ct; auto.
    + destruct (is_None_spec v) as [-> |]; cbn [negb]; [| intros [=]].
      destruct (in_ALLOWED_RANK_TYPES PyNone) as [[m Hm] |]; cbn [negb];
        [discriminate Hm | intros [=]].
  - rewrite set_rank_unassigned by assumption; intros [=].
Qed.

(** A setter that raises leaves the object as it was; with the type
    assigned, its exception is an [InvalidAttribute]. *)
Lemma set_card_type_raises v c e c' :
  set_card_type v c = (Raised e, c') ->
  ~ is_CardType v /\ e = ValueError (Invalid_card_type v) /\ c' = c.
Proof.
  destruct (in_ALLOWED_CARD_TYPES v) as [[t ->] | Hn].
  - rewrite set_card_type_member; intros [=].
  - rewrite set_card_type_other by assumption; intros [= <- <-]; auto.
Qed.

Lemma set_suit_raises v c e c' :
  set_suit v c = (Raised e, c') ->
  c' = c /\ (_card_type c <> None -> InvalidAttribute e = true).
Proof.
  destruct (_card_type c) as [ct |] eqn:Hct.
  - rewrite (set_suit_unfold c ct v Hct).
    destruct (_ && _); [intros [= <- <-]; auto |].
    destruct (_ && _); [intros [= <- <-]; auto |].
    destruct (negb _); intros [= <- <-]; auto.
  - rewrite set_suit_unassigned by assumption.
    intros [= <- <-]; split; [reflexivity | congruence].
Qed.

Lemma set_rank_raises v c e c' :
  set_rank v c = (Raised e, c') ->
  c' = c /\ (_card_type c <> None -> InvalidAttribute e = true).
Proof.
  destruct (_card_type c) as [ct |] eqn:Hct.
  - rewrite (set_rank_unfold c ct v Hct).
    destruct (_ && _); [intros [= <- <-]; auto |].
    destruct (_ && _); [intros [= <- <-]; auto |].
    destruct (negb _); intros [= <- <-]; auto.
  - rewrite set_rank_unassigned by assumption.
    intros [= <- <-]; split; [reflexivity | congruence].
Qed.

(** ** The constructor *)

Lemma Construct_unfold t s r :
  Construct t s r =
  match set_card_type t new_object with
  | (Raised e, _) => Raised e
  | (Returned _, c1) =>
      match set_suit s c1 with
      | (Raised e, _) => Raised e
      | (Returned _, c2) =>
          match set_rank r c2 with
          | (Raised e, _) => Raised e
          | (Returned _, c3) => Returned c3
          end
      end
  end.
Proof.
  unfold Construct, Card_call, __init__, bind.
  destruct (set_card_type t new_object) as [[[] | e1] c1]; [| reflexivity].
  destruct (set_suit s c1) as [[[] | e2] c2]; [| reflexivity].
  destruct (set_rank r c2) as [[[] | e3] c3]; reflexivity.
Qed.

Lemma Construct_standard s r :
  Construct (PyCardType STANDARD) (PySuit s) (PyRank r) =
  Returned (mkCard (Some (PyCardType STANDARD))
                   (Some (PySuit s)) (Some (PyRank r))).
Proof. destruct s, r; reflexivity. Qed.

(** The constructor returns on STANDARD with a suit and a rank, and on
    nothing else. *)
Lemma Construct_returns t s r c :
  Construct t s r = Returned c ->
  exists ms mr,
    t = PyCardType STANDARD /\ s = PySuit ms /\ r = PyRank mr /\
    c = mkCard (Some t) (Some s) (Some r).
Proof.
  rewrite Construct_unfold.
  destruct (set_card_type t new_object) as [[[] | e1] c1] eqn:H1;
    [| intros [=]].
  destruct (set_suit s c1) as [[[] | e2] c2] eqn:H2; [| intros [=]].
  destruct (set_rank r c2) as [[[] | e3] c3] eqn:H3; intros [= <-].
  apply set_suit_returns in H2 as (Ht & [ms ->] & ->).
  apply set_rank_returns in H3 as (_ & [mr ->] & ->).
  apply set_card_type_returns in H1 as (t0 & -> & ->).
  exists ms, mr.
  destruct (CardTypes_eq_dec t0 STANDARD) as [-> | Hne]; simpl in *.
  - repeat split.
  - congruence.
Qed.

(** When the constructor raises, the exception is [InvalidAttribute]. *)
Lemma Construct_raises t s r e :
  Construct t s r = Raised e -> InvalidAttribute e = true.
Proof.
  rewrite Construct_unfold.
  destruct (set_card_type t new_object) as [[[] | e1] c1] eqn:H1.
  - apply set_card_type_returns in H1 as (t0 & -> & Hc1).
    assert (Hty : _card_type c1 <> None)
      by (subst c1; destruct (CardTypes_eq_dec t0 STANDARD); discriminate).
    destruct (set_suit s c1) as [[[] | e2] c2] eqn:H2.
    + apply set_suit_returns in H2 as (Ht & _ & ->).
      destruct (set_rank r _) as [[[] | e3] c3] eqn:H3; intros [= <-].
      apply set_rank_raises in H3 as [_ H3]; apply H3; simpl; congruence.
    + intros [= <-]. apply set_suit_raises in H2 as [_ H2]; auto.
  - intros [= <-].
    apply set_card_type_raises in H1 as (_ & -> & _); reflexivity.
Qed.

(** ** Reachable cards are exactly the cards of [card_invariant] *)

Lemma reachable_invariant c : reachable c -> card_invariant c.
Proof.
  induction 1 as [t s r c H | v c c' _ IH H | v c c' _ IH H
                  | v c c' _ IH H].
  - apply Construct_returns in H as (ms & mr & -> & -> & -> & ->).
    exists STANDARD, (PySuit ms), (PyRank mr).
    repeat split; try congruence; right; eexists; reflexivity.
  - apply set_card_type_returns in H as (t & -> & ->).
    destruct IH as (t0 & s0 & r0 & -> & _ & Hs & Hr).
    destruct (CardTypes_eq_dec t STANDARD) as [-> | Hne]; simpl.
    + exists STANDARD, s0, r0; repeat split; auto; congruence.
    + exists t, PyNone, PyNone; repeat split; auto.
  - apply set_suit_returns in H as (Ht & Hv & ->).
    destruct IH as (t0 & s0 & r0 & -> & _ & _ & Hr).
    simpl in *. injection Ht as ->.
    exists STANDARD, v, r0; repeat split; auto; congruence.
  - apply set_rank_returns in H as (Ht & Hv & ->).
    destruct IH as (t0 & s0 & r0 & -> & _ & Hs & _).
    simpl in *. injection Ht as ->.
    exists STANDARD, s0, v; repeat split; auto; congruence.
Qed.

Lemma reachable_standard s r :
  reachable (mkCard (Some (PyCardType STANDARD))
                    (Some (PySuit s)) (Some (PyRank r))).
Proof. eapply reach_Construct, Construct_standard. Qed.

Lemma reachable_non_standard t :
  reachable (mkCard (Some (PyCardType t)) (Some PyNone) (Some PyNone)).
Proof.
  destruct t.
  - apply reach_set_card_type
      with (v := PyCardType STANDARD)
           (c := mkCard (Some (PyCardType JOKER)) (Some PyNone) (Some PyNone));
      [| reflexivity].
    apply reach_set_card_type
      with (v := PyCardType JOKER)
           (c := mkCard (Some (PyCardType STANDARD))
                        (Some (PySuit HEART)) (Some (PyRank ACE)));
      [apply reachable_standard | reflexivity].
  - apply reach_set_card_type
      with (v := PyCardType JOKER)
           (c := mkCard (Some (PyCardType STANDARD))
                        (Some (PySuit HEART)) (Some (PyRank ACE)));
      [apply reachable_standard | reflexivity].
  - apply reach_set_card_type
      with (v := PyCardType GUARANTEE)
           (c := mkCard (Some (PyCardType STANDARD))
                        (Some (PySuit HEART)) (Some (PyRank ACE)));
      [apply reachable_standard | reflexivity].
Qed.

Lemma invariant_reachable c : card_invariant c -> reachable c.
Proof.
  intros (t & s & r & -> & Hnull & Hs & Hr).
  destruct (CardTypes_eq_dec t STANDARD) as [-> | Hne].
  - destruct Hs as [-> | [ms ->]], Hr as [-> | [mr ->]].
    + apply reachable_non_standard.
    + apply reach_set_rank with (v := PyRank mr) (c := the_blank_card);
        [apply reachable_non_standard | destruct mr; reflexivity].
    + apply reach_set_suit with (v := PySuit ms) (c := the_blank_card);
        [apply reachable_non_standard | destruct ms; reflexivity].
    + apply reachable_standard.
  - destruct (Hnull Hne) as [-> ->]. apply reachable_non_standard.
Qed.

(** ** Rendering *)

Lemma str_standard s r :
  __str__ (mkCard (Some (PyCardType STANDARD))
                  (Some (PySuit s)) (Some (PyRank r))) =
  (Returned (CardRankTypes_name r ++ " of " ++ CardSuitTypes_value s),
   mkCard (Some (PyCardType STANDARD)) (Some (PySuit s)) (Some (PyRank r))).
Proof. reflexivity. Qed.

Lemma str_non_standard t :
  t <> STANDARD ->
  __str__ (mkCard (Some (PyCardType t)) (Some PyNone) (Some PyNone)) =
  (Returned (CardTypes_value t),
   mkCard (Some (PyCardType t)) (Some PyNone) (Some PyNone)).
Proof. destruct t; [congruence | reflexivity | reflexivity]. Qed.

Lemma str_blank s r :
  s = PyNone \/ r = PyNone ->
  __str__ (mkCard (Some (PyCardType STANDARD)) (Some s) (Some r)) =
  (Raised (ValueError (Suit_or_Rank_empty r s)),
   mkCard (Some (PyCardType STANDARD)) (Some s) (Some r)).
Proof.
  intros [-> | ->]; [destruct r |]; reflexivity.
Qed.

(** On any object, also one whose attributes were assigned behind the
    setters, the [ValueError] of [__str__] needs a STANDARD card with a
    null suit or rank. *)
Lemma str_InvalidState_blank c e c' :
  __str__ c = (Raised e, c') -> InvalidState e = true -> blank_standard c.
Proof.
  destruct c as [oct os or].
  unfold __str__, bind, card_type, rank, suit, getattr, blank_standard;
    simpl.
  destruct oct as [ct |]; [| intros [= <- <-]; discriminate].
  destruct (py_eq_spec ct (PyCardType STANDARD)) as [-> | Hne].
  - destruct or as [r |]; simpl; [| intros [= <- <-]; discriminate].
    destruct (is_None_spec r) as [-> | Hr]; simpl.
    + intros _ _; auto.
    + destruct os as [s |]; simpl; [| intros [= <- <-]; discriminate].
      destruct (is_None_spec s) as [-> | Hs]; simpl.
      * intros _ _; auto.
      * destruct r; simpl; try (intros [= <- <-]; discriminate);
          destruct s; simpl; intros [= <- <-]; discriminate.
  - destruct ct; simpl; intros [= <- <-]; discriminate.
Qed.

Lemma reachable_the_blank_card : reachable the_blank_card.
Proof. apply (reachable_non_standard STANDARD). Qed.

(** * The claims *)

(** C1 (the code departs from it).  The claim: constructing a JOKER or a
    GUARANTEE card with null suit and rank succeeds and the card displays
    as "joker" / "guarantee".  The code: after the type is set, [__init__]
    passes the null suit to the suit setter, whose membership test
    [val not in ALLOWED_SUIT_TYPES] rejects [None]; the constructor raises
    "Invalid suit type: None" for both types. *)
Theorem Construct_non_standard_raises :
  Construct (PyCardType JOKER) default_suit default_rank
    = Raised (ValueError (Invalid_suit_type PyNone)) /\
  Construct (PyCardType GUARANTEE) default_suit default_rank
    = Raised (ValueError (Invalid_suit_type PyNone)).
Proof. split; reflexivity. Qed.

(** C2, as stated, fails: a STANDARD card with null suit and rank is
    reachable (construct the ace of hearts, set the type to JOKER, set it
    back to STANDARD), and the stated equivalences do not hold on it. *)
Lemma spec_invariant_fails_on_blank_card :
  reachable the_blank_card /\ ~ spec_invariant the_blank_card.
Proof.
  split.
  - apply reach_set_card_type
      with (v := PyCardType STANDARD)
           (c := mkCard (Some (PyCardType JOKER)) (Some PyNone) (Some PyNone));
      [| reflexivity].
    apply reach_set_card_type
      with (v := PyCardType JOKER)
           (c := mkCard (Some (PyCardType STANDARD))
                        (Some (PySuit HEART)) (Some (PyRank ACE)));
      [| reflexivity].
    apply reach_Construct
      with (t := PyCardType STANDARD) (s := PySuit HEART) (r := PyRank ACE).
    reflexivity.
  - intros [Hstd _].
    destruct (proj1 Hstd eq_refl) as [[s Hs] _]. discriminate Hs.
Qed.

(** C2, amended.  Every card reachable from a successful construction by
    successful setter calls has a [CardTypes] member as its type; when the
    type is not STANDARD, suit and rank are both null; when it is
    STANDARD, each of suit and rank is null or a member of its
    enumeration. *)
Theorem reachable_card_invariant c :
  reachable c ->
  exists t s r,
    c = mkCard (Some (PyCardType t)) (Some s) (Some r) /\
    (t <> STANDARD -> s = PyNone /\ r = PyNone) /\
    (s = PyNone \/ is_Suit s) /\
    (r = PyNone \/ is_Rank r).
Proof. apply reachable_invariant. Qed.

Lemma reachable_card_invariant_witness :
  exists t s r,
    mkCard (Some (PyCardType STANDARD)) (Some (PySuit SPADE)) (Some PyNone)
      = mkCard (Some (PyCardType t)) (Some s) (Some r) /\
    (t <> STANDARD -> s = PyNone /\ r = PyNone) /\
    (s = PyNone \/ is_Suit s) /\
    (r = PyNone \/ is_Rank r).
Proof.
  apply (reachable_card_invariant
           (mkCard (Some (PyCardType STANDARD)) (Some (PySuit SPADE))
                   (Some PyNone))).
  apply reach_set_suit with (v := PySuit SPADE) (c := the_blank_card);
    [| reflexivity].
  apply reach_set_card_type
    with (v := PyCardType STANDARD)
         (c := mkCard (Some (PyCardType GUARANTEE)) (Some PyNone)
                      (Some PyNone));
    [| reflexivity].
  apply reach_set_card_type
    with (v := PyCardType GUARANTEE)
         (c := mkCard (Some (PyCardType STANDARD))
                      (Some (PySuit CLUB)) (Some (PyRank TWO)));
    [| reflexivity].
  apply reach_Construct
    with (t := PyCardType STANDARD) (s := PySuit CLUB) (r := PyRank TWO).
  reflexivity.
Defined.

(** C3, as stated, fails in its second half: the blank STANDARD card is
    produced by successful public calls alone, and [ToDisplayString()]
    raises [InvalidState] on it. *)
Lemma public_calls_reach_InvalidState :
  (exists c1 c2 c3,
      Construct (PyCardType STANDARD) (PySuit HEART) (PyRank ACE)
        = Returned c1 /\
      set_card_type (PyCardType JOKER) c1 = (Returned tt, c2) /\
      set_card_type (PyCardType STANDARD) c2 = (Returned tt, c3) /\
      ToDisplayString c3
        = Raised (ValueError (Suit_or_Rank_empty PyNone PyNone))) /\
  reachable the_blank_card /\ raises_InvalidState the_blank_card.
Proof.
  split; [| split].
  - do 3 eexists; repeat split.
  - apply reachable_the_blank_card.
  - eexists; split; reflexivity.
Qed.

(** C3, amended.  No setter raises [InvalidState]; [ToDisplayString()]
    raises it only on a STANDARD card whose suit or rank is null.  Such a
    card is reachable through the public setters (a card whose type went
    from STANDARD to another type and back), and on every reachable card
    [ToDisplayString()] raises [InvalidState] exactly when the card is
    STANDARD with a null suit or rank, and returns a string otherwise.
    A card just returned by the constructor always displays. *)
Theorem InvalidState_only_on_blank_standard :
  (forall v c e c',
      set_card_type v c = (Raised e, c') \/ set_suit v c = (Raised e, c') \/
      set_rank v c = (Raised e, c') -> InvalidState e = false) /\
  (forall c, raises_InvalidState c -> blank_standard c) /\
  (forall c, reachable c ->
     (blank_standard c -> raises_InvalidState c) /\
     (~ blank_standard c -> exists str, ToDisplayString c = Returned str)) /\
  (forall t s r c, Construct t s r = Returned c ->
     exists str, ToDisplayString c = Returned str).
Proof.
  split; [| split; [| split]].
  - intros v c e c' [H | [H | H]].
    + apply set_card_type_raises in H as (_ & -> & _); reflexivity.
    + destruct (_card_type c) as [ct |] eqn:Hct.
      * apply set_suit_raises in H as [_ H].
        assert (He : InvalidAttribute e = true) by (apply H; congruence).
        destruct e as [[] |]; try reflexivity; discriminate He.
      * rewrite set_suit_unassigned in H by assumption.
        injection H as <- _; reflexivity.
    + destruct (_card_type c) as [ct |] eqn:Hct.
      * apply set_rank_raises in H as [_ H].
        assert (He : InvalidAttribute e = true) by (apply H; congruence).
        destruct e as [[] |]; try reflexivity; discriminate He.
      * rewrite set_rank_unassigned in H by assumption.
        injection H as <- _; reflexivity.
  - intros c (e & He & Hst). unfold ToDisplayString in He.
    destruct (__str__ c) as [o c'] eqn:Hs; simpl in He; subst o.
    eapply str_InvalidState_blank; eassumption.
  - intros c Hc.
    apply reachable_invariant in Hc as (t & s & r & -> & Hnull & Hs & Hr).
    unfold blank_standard, raises_InvalidState, ToDisplayString; simpl.
    split.
    + intros [[= ->] Hblank].
      assert (Hb : s = PyNone \/ r = PyNone)
        by (destruct Hblank as [[= ->] | [= ->]]; auto).
      rewrite (str_blank s r Hb). eexists; split; reflexivity.
    + intros Hnb. destruct (CardTypes_eq_dec t STANDARD) as [-> | Hne].
      * destruct Hs as [-> | [ms ->]]; [exfalso; auto |].
        destruct Hr as [-> | [mr ->]]; [exfalso; auto |].
        rewrite str_standard; eexists; reflexivity.
      * destruct (Hnull Hne) as [-> ->].
        rewrite (str_non_standard t Hne); eexists; reflexivity.
  - intros t s r c H.
    apply Construct_returns in H as (ms & mr & -> & -> & -> & ->).
    unfold ToDisplayString; rewrite str_standard; eexists; reflexivity.
Qed.

Lemma InvalidState_only_on_blank_standard_witness :
  reachable the_blank_card /\ blank_standard the_blank_card /\
  raises_InvalidState the_blank_card.
Proof.
  assert (Hr : reachable the_blank_card).
  { apply reach_set_card_type
      with (v := PyCardType STANDARD)
           (c := mkCard (Some (PyCardType JOKER)) (Some PyNone) (Some PyNone));
      [| reflexivity].
    apply reach_set_card_type
      with (v := PyCardType JOKER)
           (c := mkCard (Some (PyCardType STANDARD))
                        (Some (PySuit HEART)) (Some (PyRank ACE)));
      [| reflexivity].
    apply reach_Construct
      with (t := PyCardType STANDARD) (s := PySuit HEART) (r := PyRank ACE).
    reflexivity. }
  assert (Hb : blank_standard the_blank_card)
    by (split; [reflexivity | left; reflexivity]).
  split; [exact Hr | split; [exact Hb |]].
  exact (proj1 (proj1 (proj2 (proj2 InvalidState_only_on_blank_standard))
                  the_blank_card Hr) Hb).
Defined.

(** C4.  For every suit and rank, [Construct(STANDARD, suit, rank)]
    returns a card and [ToDisplayString()] returns the rank's name, the
    text " of " and the suit's value; the ace of hearts displays as
    "ACE of heart" and the king of spades as "KING of spade". *)
Theorem Construct_standard_display :
  (forall s r, exists c,
      Construct (PyCardType STANDARD) (PySuit s) (PyRank r) = Returned c /\
      ToDisplayString c
        = Returned (CardRankTypes_name r ++ " of " ++ CardSuitTypes_value s))
  /\
  (exists c,
      Construct (PyCardType STANDARD) (PySuit HEART) (PyRank ACE)
        = Returned c /\
      ToDisplayString c = Returned "ACE of heart") /\
  (exists c,
      Construct (PyCardType STANDARD) (PySuit SPADE) (PyRank KING)
        = Returned c /\
      ToDisplayString c = Returned "KING of spade").
Proof.
  split; [| split].
  - intros s r; eexists; split; [apply Construct_standard |].
    unfold ToDisplayString; rewrite str_standard; reflexivity.
  - eexists; split; reflexivity.
  - eexists; split; reflexivity.
Qed.

(** C5.  On a card whose type is [ct], the suit setter raises
    [InvalidAttribute] if and only if [ct] is STANDARD and the value is
    null, or [ct] is not STANDARD and the value is not null, or the value
    is not a [CardSuitTypes] member; the rank setter likewise, with
    [CardRankTypes]. *)
Theorem set_suit_rank_fail_iff c ct v :
  _card_type c = Some ct ->
  ((exists e c', set_suit v c = (Raised e, c') /\ InvalidAttribute e = true)
   <->
   (ct = PyCardType STANDARD /\ v = PyNone) \/
   (ct <> PyCardType STANDARD /\ v <> PyNone) \/
   ~ is_Suit v)
  /\
  ((exists e c', set_rank v c = (Raised e, c') /\ InvalidAttribute e = true)
   <->
   (ct = PyCardType STANDARD /\ v = PyNone) \/
   (ct <> PyCardType STANDARD /\ v <> PyNone) \/
   ~ is_Rank v).
Proof.
  intros Hct.
  rewrite (set_suit_unfold c ct v Hct), (set_rank_unfold c ct v Hct).
  unfold py_ne.
  split.
  - destruct (py_eq_spec ct (PyCardType STANDARD)) as [Ht | Ht],
             (is_None_spec v) as [Hv | Hv],
             (in_ALLOWED_SUIT_TYPES v) as [Hm | Hm]; cbn [andb negb];
      (split;
       [ intros (e & c' & Heq & He); try discriminate Heq; tauto
       | intros Hor;
         first [ do 2 eexists; split; reflexivity | exfalso; tauto ] ]).
  - destruct (py_eq_spec ct (PyCardType STANDARD)) as [Ht | Ht],
             (is_None_spec v) as [Hv | Hv],
             (in_ALLOWED_RANK_TYPES v) as [Hm | Hm]; cbn [andb negb];
      (split;
       [ intros (e & c' & Heq & He); try discriminate Heq; tauto
       | intros Hor;
         first [ do 2 eexists; split; reflexivity | exfalso; tauto ] ]).
Qed.

Lemma set_suit_rank_fail_iff_witness :
  ((exists e c',
       set_suit PyNone
         (mkCard (Some (PyCardType JOKER)) (Some PyNone) (Some PyNone))
         = (Raised e, c') /\ InvalidAttribute e = true)
   <->
   (PyCardType JOKER = PyCardType STANDARD /\ PyNone = PyNone) \/
   (PyCardType JOKER <> PyCardType STANDARD /\ PyNone <> PyNone) \/
   ~ is_Suit PyNone)
  /\
  ((exists e c',
       set_rank PyNone
         (mkCard (Some (PyCardType JOKER)) (Some PyNone) (Some PyNone))
         = (Raised e, c') /\ InvalidAttribute e = true)
   <->
   (PyCardType JOKER = PyCardType STANDARD /\ PyNone = PyNone) \/
   (PyCardType JOKER <> PyCardType STANDARD /\ PyNone <> PyNone) \/
   ~ is_Rank PyNone).
Proof.
  apply (set_suit_rank_fail_iff
           (mkCard (Some (PyCardType JOKER)) (Some PyNone) (Some PyNone))
           (PyCardType JOKER) PyNone).
  reflexivity.
Defined.

(** C6.  For a [CardTypes] member [t] other than STANDARD, setting the
    type of any card to [t] returns, and afterwards the type is [t] and
    suit and rank are null; so the ace of hearts turned into a JOKER has
    a null suit and a null rank. *)
Theorem set_card_type_non_standard_clears c t :
  t <> STANDARD ->
  exists c',
    set_card_type (PyCardType t) c = (Returned tt, c') /\
    _card_type c' = Some (PyCardType t) /\
    _suit c' = Some PyNone /\ _rank c' = Some PyNone.
Proof.
  intros Hne. rewrite set_card_type_member.
  destruct (CardTypes_eq_dec t STANDARD); [contradiction |].
  eexists; repeat split.
Qed.

Lemma set_card_type_non_standard_clears_witness :
  exists c',
    set_card_type (PyCardType JOKER)
      (mkCard (Some (PyCardType STANDARD))
              (Some (PySuit HEART)) (Some (PyRank ACE)))
      = (Returned tt, c') /\
    _card_type c' = Some (PyCardType JOKER) /\
    _suit c' = Some PyNone /\ _rank c' = Some PyNone.
Proof.
  apply (set_card_type_non_standard_clears
           (mkCard (Some (PyCardType STANDARD))
                   (Some (PySuit HEART)) (Some (PyRank ACE))) JOKER).
  discriminate.
Defined.

(** C7.  For a value that is not a [CardTypes] member, the constructor
    raises [InvalidAttribute] whatever the suit and rank, and the type
    setter raises [InvalidAttribute] on every card. *)
Theorem unrecognized_card_type_rejected v :
  ~ is_CardType v ->
  (forall s r, exists e,
      Construct v s r = Raised e /\ InvalidAttribute e = true) /\
  (forall c, exists e c',
      set_card_type v c = (Raised e, c') /\ InvalidAttribute e = true).
Proof.
  intros Hv; split.
  - intros s r. rewrite Construct_unfold, set_card_type_other by assumption.
    eexists; split; reflexivity.
  - intros c. rewrite set_card_type_other by assumption.
    do 2 eexists; split; reflexivity.
Qed.

Lemma unrecognized_card_type_rejected_witness :
  (forall s r, exists e,
      Construct (PyStr "standard") s r = Raised e /\
      InvalidAttribute e = true) /\
  (forall c, exists e c',
      set_card_type (PyStr "standard") c = (Raised e, c') /\
      InvalidAttribute e = true).
Proof.
  apply (unrecognized_card_type_rejected (PyStr "standard")).
  intros [t Ht]; discriminate Ht.
Defined.

(** C8.  [Construct(STANDARD, suit, rank)] raises [InvalidAttribute]
    whenever the suit or the rank is null, and [Construct(JOKER, ..)] and
    [Construct(GUARANTEE, ..)] raise [InvalidAttribute] whenever the suit
    or the rank is not null. *)
Theorem Construct_null_mismatch_rejected s r :
  (s = PyNone \/ r = PyNone ->
   exists e, Construct (PyCardType STANDARD) s r = Raised e /\
             InvalidAttribute e = true) /\
  (forall t, t = JOKER \/ t = GUARANTEE ->
   s <> PyNone \/ r <> PyNone ->
   exists e, Construct (PyCardType t) s r = Raised e /\
             InvalidAttribute e = true).
Proof.
  split.
  - intros Hnull.
    destruct (Construct (PyCardType STANDARD) s r) as [c | e] eqn:H.
    + apply Construct_returns in H as (ms & mr & _ & -> & -> & _).
      destruct Hnull; discriminate.
    + exists e; split; [reflexivity | eapply Construct_raises; eassumption].
  - intros t Ht _.
    destruct (Construct (PyCardType t) s r) as [c | e] eqn:H.
    + apply Construct_returns in H as (ms & mr & [= ->] & _).
      destruct Ht; discriminate.
    + exists e; split; [reflexivity | eapply Construct_raises; eassumption].
Qed.

Lemma Construct_null_mismatch_rejected_witness :
  (exists e, Construct (PyCardType STANDARD) (PySuit HEART) PyNone
             = Raised e /\ InvalidAttribute e = true) /\
  (exists e, Construct (PyCardType JOKER) (PySuit HEART) PyNone
             = Raised e /\ InvalidAttribute e = true).
Proof.
  split.
  - apply (proj1 (Construct_null_mismatch_rejected (PySuit HEART) PyNone)).
    right; reflexivity.
  - apply (proj2 (Construct_null_mismatch_rejected (PySuit HEART) PyNone)
             JOKER).
    + left; reflexivity.
    + left; discriminate.
Defined.

(** C9.  A setter that raises leaves the card as it was: the object
    after the call equals the object before it, so type, suit and rank
    are unchanged. *)
Theorem setters_atomic v c e c' :
  set_card_type v c = (Raised e, c') \/
  set_suit v c = (Raised e, c') \/
  set_rank v c = (Raised e, c') ->
  c' = c /\
  _card_type c' = _card_type c /\ _suit c' = _suit c /\ _rank c' = _rank c.
Proof.
  intros H. assert (Hc : c' = c).
  { destruct H as [H | [H | H]].
    - apply set_card_type_raises in H as (_ & _ & Hc); exact Hc.
    - apply set_suit_raises in H as [Hc _]; exact Hc.
    - apply set_rank_raises in H as [Hc _]; exact Hc. }
  subst c'; repeat split.
Qed.

Lemma setters_atomic_witness :
  set_suit (PyStr "heart") the_blank_card
    = (Raised (ValueError (Invalid_suit_type (PyStr "heart"))),
       snd (set_suit (PyStr "heart") the_blank_card)) /\
  snd (set_suit (PyStr "heart") the_blank_card) = the_blank_card /\
  _card_type (snd (set_suit (PyStr "heart") the_blank_card))
    = Some (PyCardType STANDARD).
Proof.
  assert (H : set_suit (PyStr "heart") the_blank_card
              = (Raised (ValueError (Invalid_suit_type (PyStr "heart"))),
                 snd (set_suit (PyStr "heart") the_blank_card)))
    by reflexivity.
  split; [exact H |].
  destruct (setters_atomic (PyStr "heart") the_blank_card _ _
              (or_intror (or_introl H))) as (Hc & Ht & _).
  split; [exact Hc | rewrite Ht; reflexivity].
Defined.

(** C10.  A suit setter that returns has stored the value as the suit
    and left type and rank as they were; a rank setter that returns has
    stored the rank and left type and suit as they were; setting the type
    to STANDARD always returns, stores the type and leaves suit and rank
    as they were.  A type setter that returned and changed the suit or
    the rank was given a type other than STANDARD. *)
Theorem setters_frame v c c' :
  (set_suit v c = (Returned tt, c') ->
   _suit c' = Some v /\
   _card_type c' = _card_type c /\ _rank c' = _rank c) /\
  (set_rank v c = (Returned tt, c') ->
   _rank c' = Some v /\
   _card_type c' = _card_type c /\ _suit c' = _suit c) /\
  (exists c1,
      set_card_type (PyCardType STANDARD) c = (Returned tt, c1) /\
      _card_type c1 = Some (PyCardType STANDARD) /\
      _suit c1 = _suit c /\ _rank c1 = _rank c) /\
  (set_card_type v c = (Returned tt, c') ->
   _suit c' <> _suit c \/ _rank c' <> _rank c ->
   v <> PyCardType STANDARD).
Proof.
  split; [| split; [| split]].
  - intros H; apply set_suit_returns in H as (_ & _ & ->); repeat split.
  - intros H; apply set_rank_returns in H as (_ & _ & ->); repeat split.
  - eexists; repeat split.
  - intros H Hch ->. injection H as <-. simpl in Hch.
    destruct Hch as [Hch | Hch]; apply Hch; reflexivity.
Qed.

Lemma setters_frame_witness :
  _suit (mkCard (Some (PyCardType STANDARD))
                (Some (PySuit DIAMOND)) (Some (PyRank TEN)))
    = Some (PySuit DIAMOND) /\
  _card_type (mkCard (Some (PyCardType STANDARD))
                     (Some (PySuit DIAMOND)) (Some (PyRank TEN)))
    = _card_type (mkCard (Some (PyCardType STANDARD))
                         (Some (PySuit HEART)) (Some (PyRank TEN))) /\
  _rank (mkCard (Some (PyCardType STANDARD))
                (Some (PySuit DIAMOND)) (Some (PyRank TEN)))
    = _rank (mkCard (Some (PyCardType STANDARD))
                    (Some (PySuit HEART)) (Some (PyRank TEN))).
Proof.
  apply (proj1 (setters_frame (PySuit DIAMOND)
                  (mkCard (Some (PyCardType STANDARD))
                          (Some (PySuit HEART)) (Some (PyRank TEN)))
                  (mkCard (Some (PyCardType STANDARD))
                          (Some (PySuit DIAMOND)) (Some (PyRank TEN))))).
  reflexivity.
Defined.

(** * Further properties of the class *)

(** ** Reading never writes *)

Lemma read_only_ret {A : Type} (a : A) : read_only (ret a).
Proof. intros self; reflexivity. Qed.

Lemma read_only_raise {A : Type} (e : exn) : read_only (@raise A e).
Proof. intros self; reflexivity. Qed.

Lemma read_only_getattr field attr : read_only (getattr field attr).
Proof. intros self; unfold getattr; destruct (field self); reflexivity. Qed.

Lemma read_only_bind {A B : Type} (m : method A) (k : A -> method B) :
  read_only m -> (forall a, read_only (k a)) -> read_only (bind m k).
Proof.
  intros Hm Hk self; unfold bind.
  specialize (Hm self).
  destruct (m self) as [[a | e] self']; simpl in Hm; subst self'.
  - apply Hk.
  - reflexivity.
Qed.

Lemma read_only_attr_name v : read_only (attr_name v).
Proof. destruct v; intros self; reflexivity. Qed.

Lemma read_only_attr_value v : read_only (attr_value v).
Proof. destruct v; intros self; reflexivity. Qed.

Lemma read_only_if {A : Type} (b : bool) (m1 m2 : method A) :
  read_only m1 -> read_only m2 -> read_only (if b then m1 else m2).
Proof. destruct b; auto. Qed.

Create HintDb readers.
#[local] Hint Resolve read_only_ret read_only_raise read_only_getattr
  read_only_attr_name read_only_attr_value : readers.

Ltac read_only_steps :=
  repeat first
    [ apply read_only_bind; [| intros ?]
    | apply read_only_if
    | solve [unfold card_type, suit, rank; auto with readers] ].

Lemma read_only_str : read_only __str__.
Proof. unfold __str__. read_only_steps. Qed.

(** X1.  The getters and [__str__] leave the card as it is, whether they
    return or raise: displaying or reading a card never changes its
    type, suit or rank. *)
Theorem readers_leave_card_unchanged (c : Card) :
  snd (card_type c) = c /\ snd (suit c) = c /\ snd (rank c) = c /\
  snd (__str__ c) = c.
Proof.
  repeat split;
    [ apply (read_only_getattr _card_type)
    | apply (read_only_getattr _suit)
    | apply (read_only_getattr _rank)
    | apply read_only_str ].
Qed.

(** ** The constructor, completely *)

(** X2.  The constructor returns a card exactly when the type is
    STANDARD, the suit is a [CardSuitTypes] member and the rank is a
    [CardRankTypes] member, and the card then holds exactly these three
    values. *)
Theorem Construct_returns_iff t s r c :
  Construct t s r = Returned c <->
  t = PyCardType STANDARD /\ is_Suit s /\ is_Rank r /\
  c = mkCard (Some t) (Some s) (Some r).
Proof.
  split.
  - intros H. apply Construct_returns in H as (ms & mr & -> & -> & -> & ->).
    repeat split; eexists; reflexivity.
  - intros (-> & [ms ->] & [mr ->] & ->). apply Construct_standard.
Qed.

(** X3.  The constructor reports the first attribute that fails, in the
    order type, suit, rank.  A value that is no [CardTypes] member is
    reported whatever suit and rank are.  On STANDARD, a null suit and
    then a suit that is no member are reported before the rank is looked
    at; with a suit member, a null rank and then a rank that is no
    member are reported.  On JOKER and GUARANTEE the suit is reported
    always: as forbidden when it is not null, as invalid when it is
    null. *)
Theorem Construct_reports_first_failure t s r :
  (~ is_CardType t ->
   Construct t s r = Raised (ValueError (Invalid_card_type t))) /\
  (t = PyCardType STANDARD -> s = PyNone ->
   Construct t s r = Raised (ValueError Suit_missing_for_standard)) /\
  (t = PyCardType STANDARD -> s <> PyNone -> ~ is_Suit s ->
   Construct t s r = Raised (ValueError (Invalid_suit_type s))) /\
  (t = PyCardType STANDARD -> is_Suit s -> r = PyNone ->
   Construct t s r = Raised (ValueError Rank_missing_for_standard)) /\
  (t = PyCardType STANDARD -> is_Suit s -> r <> PyNone -> ~ is_Rank r ->
   Construct t s r = Raised (ValueError (Invalid_rank_type r))) /\
  (is_CardType t -> t <> PyCardType STANDARD -> s <> PyNone ->
   Construct t s r = Raised (ValueError (Suit_given_for_non_standard s t)))
  /\
  (is_CardType t -> t <> PyCardType STANDARD -> s = PyNone ->
   Construct t s r = Raised (ValueError (Invalid_suit_type PyNone))).
Proof.
  repeat split.
  - intros Ht. rewrite Construct_unfold, set_card_type_other by assumption.
    reflexivity.
  - intros -> ->. reflexivity.
  - intros -> Hs Hm. rewrite Construct_unfold, set_card_type_member; simpl.
    erewrite (set_suit_unfold _ _ s) by reflexivity.
    destruct (is_None_spec s); [contradiction |].
    destruct (in_ALLOWED_SUIT_TYPES s); [contradiction | reflexivity].
  - intros -> [ms ->] ->. destruct ms; reflexivity.
  - intros -> [ms ->] Hr Hm.
    rewrite Construct_unfold, set_card_type_member; simpl.
    erewrite (set_suit_unfold _ _ (PySuit ms)) by reflexivity.
    destruct (in_ALLOWED_SUIT_TYPES (PySuit ms)) as [_ | Hn];
      [| exfalso; apply Hn; eexists; reflexivity].
    simpl.
    erewrite (set_rank_unfold _ _ r) by reflexivity.
    destruct (is_None_spec r); [contradiction |].
    destruct (in_ALLOWED_RANK_TYPES r); [contradiction | reflexivity].
  - intros [mt ->] Ht Hs. rewrite Construct_unfold, set_card_type_member.
    destruct (CardTypes_eq_dec mt STANDARD) as [-> | Hne]; [congruence |].
    erewrite (set_suit_unfold _ _ s) by reflexivity.
    destruct (py_eq_spec (PyCardType mt) (PyCardType STANDARD));
      [congruence |].
    destruct (py_ne_spec (PyCardType mt) (PyCardType STANDARD));
      [| contradiction].
    destruct (is_None_spec s); [contradiction | reflexivity].
  - intros [mt ->] Ht ->. destruct mt; [congruence | reflexivity ..].
Qed.

Lemma Construct_reports_first_failure_witness :
  Construct (PyStr "joker") (PyInt 7) PyNone
    = Raised (ValueError (Invalid_card_type (PyStr "joker"))) /\
  Construct (PyCardType STANDARD) (PyStr "heart") PyNone
    = Raised (ValueError (Invalid_suit_type (PyStr "heart"))) /\
  Construct (PyCardType STANDARD) (PySuit HEART) (PyInt 1)
    = Raised (ValueError (Invalid_rank_type (PyInt 1))).
Proof.
  split; [| split].
  - apply (proj1 (Construct_reports_first_failure
                    (PyStr "joker") (PyInt 7) PyNone)).
    intros [m Hm]; discriminate Hm.
  - apply (proj1 (proj2 (proj2 (Construct_reports_first_failure
                    (PyCardType STANDARD) (PyStr "heart") PyNone)))).
    + reflexivity.
    + discriminate.
    + intros [m Hm]; discriminate Hm.
  - apply (proj1 (proj2 (proj2 (proj2 (proj2
             (Construct_reports_first_failure
                (PyCardType STANDARD) (PySuit HEART) (PyInt 1))))))).
    + reflexivity.
    + exists HEART; reflexivity.
    + discriminate.
    + intros [m Hm]; discriminate Hm.
Defined.

(** ** Getters against setters and constructor *)

(** X4.  On a card the constructor returned, the three getters return
    the constructor's arguments. *)
Theorem getters_after_Construct t s r c :
  Construct t s r = Returned c ->
  card_type c = (Returned t, c) /\
  suit c = (Returned s, c) /\
  rank c = (Returned r, c).
Proof.
  intros H. apply Construct_returns in H as (ms & mr & -> & -> & -> & ->).
  repeat split.
Qed.

Lemma getters_after_Construct_witness :
  card_type (standard_card DIAMOND QUEEN)
    = (Returned (PyCardType STANDARD), standard_card DIAMOND QUEEN) /\
  suit (standard_card DIAMOND QUEEN)
    = (Returned (PySuit DIAMOND), standard_card DIAMOND QUEEN) /\
  rank (standard_card DIAMOND QUEEN)
    = (Returned (PyRank QUEEN), standard_card DIAMOND QUEEN).
Proof.
  apply (getters_after_Construct
           (PyCardType STANDARD) (PySuit DIAMOND) (PyRank QUEEN)
           (standard_card DIAMOND QUEEN)).
  reflexivity.
Defined.

(** X5.  A setter that returns is read back by its getter: after a
    successful [suit = v] the suit getter returns [v], after a successful
    [rank = v] the rank getter returns [v], and after a successful
    [card_type = v] the type getter returns [v]. *)
Theorem getter_reads_back_setter v c c' :
  (set_card_type v c = (Returned tt, c') -> card_type c' = (Returned v, c'))
  /\
  (set_suit v c = (Returned tt, c') -> suit c' = (Returned v, c')) /\
  (set_rank v c = (Returned tt, c') -> rank c' = (Returned v, c')).
Proof.
  repeat split; intros H.
  - apply set_card_type_returns in H as (t & -> & ->).
    destruct (CardTypes_eq_dec t STANDARD); reflexivity.
  - apply set_suit_returns in H as (_ & _ & ->); reflexivity.
  - apply set_rank_returns in H as (_ & _ & ->); reflexivity.
Qed.

Lemma getter_reads_back_setter_witness :
  rank (standard_card CLUB NINE)
    = (Returned (PyRank NINE), standard_card CLUB NINE).
Proof.
  apply (proj2 (proj2 (getter_reads_back_setter
                         (PyRank NINE) (standard_card CLUB TWO)
                         (standard_card CLUB NINE)))).
  reflexivity.
Defined.

(** ** Setters on particular cards *)

(** X6.  On a card whose type is JOKER or GUARANTEE, the suit setter and
    the rank setter raise [InvalidAttribute] for every value, null
    included, and leave the card unchanged: such a card accepts no
    assignment of suit or rank until its type is set to STANDARD. *)
Theorem non_standard_card_refuses_suit_and_rank t c v :
  t <> STANDARD ->
  _card_type c = Some (PyCardType t) ->
  (exists e, set_suit v c = (Raised e, c) /\ InvalidAttribute e = true) /\
  (exists e, set_rank v c = (Raised e, c) /\ InvalidAttribute e = true).
Proof.
  intros Hne Hct.
  rewrite (set_suit_unfold c _ v Hct), (set_rank_unfold c _ v Hct).
  unfold py_ne.
  destruct (py_eq_spec (PyCardType t) (PyCardType STANDARD));
    [congruence |].
  destruct (is_None_spec v) as [-> | Hv]; cbn [andb negb];
    split; eexists; split; reflexivity.
Qed.

Lemma non_standard_card_refuses_suit_and_rank_witness :
  (exists e, set_suit PyNone (non_standard_card GUARANTEE)
             = (Raised e, non_standard_card GUARANTEE) /\
             InvalidAttribute e = true) /\
  (exists e, set_rank PyNone (non_standard_card GUARANTEE)
             = (Raised e, non_standard_card GUARANTEE) /\
             InvalidAttribute e = true).
Proof.
  apply (non_standard_card_refuses_suit_and_rank
           GUARANTEE (non_standard_card GUARANTEE) PyNone).
  - discriminate.
  - reflexivity.
Defined.

(** X7.  The suit and rank setters, the type getter and [__str__] read
    the type first: on an object whose type has not been assigned they
    raise [AttributeError] for [_card_type] and assign nothing, whatever
    the value and whatever suit and rank the object holds. *)
Theorem type_is_read_first c v :
  _card_type c = None ->
  set_suit v c = (Raised (AttributeError "_card_type"), c) /\
  set_rank v c = (Raised (AttributeError "_card_type"), c) /\
  card_type c = (Raised (AttributeError "_card_type"), c) /\
  __str__ c = (Raised (AttributeError "_card_type"), c).
Proof.
  intros H. repeat split.
  - apply set_suit_unassigned, H.
  - apply set_rank_unassigned, H.
  - unfold card_type, getattr; rewrite H; reflexivity.
  - unfold __str__, bind, card_type, getattr; rewrite H; reflexivity.
Qed.

Lemma type_is_read_first_witness :
  set_suit (PySuit HEART) new_object
    = (Raised (AttributeError "_card_type"), new_object) /\
  set_rank (PySuit HEART) new_object
    = (Raised (AttributeError "_card_type"), new_object) /\
  card_type new_object
    = (Raised (AttributeError "_card_type"), new_object) /\
  __str__ new_object = (Raised (AttributeError "_card_type"), new_object).
Proof.
  apply (type_is_read_first new_object (PySuit HEART)).
  reflexivity.
Defined.

(** X8.  The suit and rank setters can be called in either order: when
    [suit = v] and then [rank = w] both return, so do [rank = w] and then
    [suit = v], and the card is the same afterwards; and the other way
    round. *)
Theorem suit_and_rank_setters_commute v w c c1 c2 :
  (set_suit v c = (Returned tt, c1) -> set_rank w c1 = (Returned tt, c2) ->
   exists c1', set_rank w c = (Returned tt, c1') /\
               set_suit v c1' = (Returned tt, c2)) /\
  (set_rank w c = (Returned tt, c1) -> set_suit v c1 = (Returned tt, c2) ->
   exists c1', set_suit v c = (Returned tt, c1') /\
               set_rank w c1' = (Returned tt, c2)).
Proof.
  split; intros H1 H2.
  - apply set_suit_returns in H1 as (Ht & [ms ->] & ->).
    apply set_rank_returns in H2 as (_ & [mr ->] & ->); simpl.
    destruct c as [ct s0 r0]; simpl in Ht; subst ct.
    eexists; split; [destruct mr | destruct ms]; reflexivity.
  - apply set_rank_returns in H1 as (Ht & [mr ->] & ->).
    apply set_suit_returns in H2 as (_ & [ms ->] & ->); simpl.
    destruct c as [ct s0 r0]; simpl in Ht; subst ct.
    eexists; split; [destruct ms | destruct mr]; reflexivity.
Qed.

Lemma suit_and_rank_setters_commute_witness :
  exists c1', set_rank (PyRank FIVE) the_blank_card = (Returned tt, c1') /\
              set_suit (PySuit CLUB) c1'
                = (Returned tt, standard_card CLUB FIVE).
Proof.
  apply (proj1 (suit_and_rank_setters_commute
                  (PySuit CLUB) (PyRank FIVE) the_blank_card
                  (mkCard (Some (PyCardType STANDARD))
                          (Some (PySuit CLUB)) (Some PyNone))
                  (standard_card CLUB FIVE)));
    reflexivity.
Defined.

(** X9.  On any object, setting the type to STANDARD, then the suit and
    then the rank to members returns and leaves exactly the card a fresh
    [Construct(STANDARD, suit, rank)] gives: what the object held before
    does not matter. *)
Theorem three_setters_rebuild_any_card c s r :
  __init__ (PySuit s) (PyRank r) (PyCardType STANDARD) c
    = (Returned tt, standard_card s r) /\
  Construct (PyCardType STANDARD) (PySuit s) (PyRank r)
    = Returned (standard_card s r).
Proof.
  split; [| apply Construct_standard].
  destruct c as [ct s0 r0], s, r; reflexivity.
Qed.

(** X10.  The last type set decides.  Setting a type [t1] and then a
    type [t2] other than STANDARD leaves the card that setting [t2]
    alone leaves.  Setting a type other than STANDARD and then STANDARD
    leaves the blank STANDARD card whatever the card held: the suit and
    rank of a card are lost, not restored, by a change of type and
    back. *)
Theorem last_card_type_decides c t1 t2 :
  (t2 <> STANDARD ->
   (set_card_type (PyCardType t1) ;; set_card_type (PyCardType t2)) c
     = set_card_type (PyCardType t2) c) /\
  (t1 <> STANDARD ->
   (set_card_type (PyCardType t1) ;; set_card_type (PyCardType STANDARD)) c
     = (Returned tt, the_blank_card)).
Proof.
  split; intros Hne.
  - destruct t2; [congruence | |]; destruct t1; reflexivity.
  - destruct t1; [congruence | |]; reflexivity.
Qed.

Lemma last_card_type_decides_witness :
  (set_card_type (PyCardType STANDARD) ;; set_card_type (PyCardType JOKER))
    (standard_card HEART ACE)
    = set_card_type (PyCardType JOKER) (standard_card HEART ACE) /\
  (set_card_type (PyCardType JOKER) ;; set_card_type (PyCardType STANDARD))
    (standard_card HEART ACE)
    = (Returned tt, the_blank_card).
Proof.
  split.
  - apply (proj1 (last_card_type_decides
                    (standard_card HEART ACE) STANDARD JOKER)).
    discriminate.
  - apply (proj2 (last_card_type_decides
                    (standard_card HEART ACE) JOKER STANDARD)).
    discriminate.
Defined.

(** X11.  On a card reachable by successful public calls, whatever a
    setter raises is an [InvalidAttribute]: no setter raises
    [AttributeError] or [InvalidState] there. *)
Theorem setters_raise_only_InvalidAttribute c v e c' :
  reachable c ->
  set_card_type v c = (Raised e, c') \/
  set_suit v c = (Raised e, c') \/
  set_rank v c = (Raised e, c') ->
  InvalidAttribute e = true.
Proof.
  intros Hc H.
  apply reachable_invariant in Hc as (t & s & r & -> & _).
  destruct H as [H | [H | H]].
  - apply set_card_type_raises in H as (_ & -> & _); reflexivity.
  - apply set_suit_raises in H as [_ H]; apply H; discriminate.
  - apply set_rank_raises in H as [_ H]; apply H; discriminate.
Qed.

Lemma setters_raise_only_InvalidAttribute_witness :
  InvalidAttribute (ValueError (Invalid_rank_type (PyInt 13))) = true.
Proof.
  apply (setters_raise_only_InvalidAttribute
           (standard_card SPADE KING) (PyInt 13)
           (ValueError (Invalid_rank_type (PyInt 13)))
           (standard_card SPADE KING)).
  - apply reach_Construct
      with (t := PyCardType STANDARD) (s := PySuit SPADE) (r := PyRank KING).
    reflexivity.
  - right; right; reflexivity.
Defined.

(** X12.  A setter call that returned can be repeated: the same call on
    the card it left returns again and leaves that card unchanged. *)
Theorem setters_idempotent v c c' :
  (set_card_type v c = (Returned tt, c') ->
   set_card_type v c' = (Returned tt, c')) /\
  (set_suit v c = (Returned tt, c') -> set_suit v c' = (Returned tt, c')) /\
  (set_rank v c = (Returned tt, c') -> set_rank v c' = (Returned tt, c')).
Proof.
  repeat split; intros H.
  - apply set_card_type_returns in H as (t & -> & ->).
    destruct c as [ct s0 r0], t; reflexivity.
  - apply set_suit_returns in H as (Ht & [ms ->] & ->).
    destruct c as [ct s0 r0]; simpl in *; subst ct.
    destruct ms; reflexivity.
  - apply set_rank_returns in H as (Ht & [mr ->] & ->).
    destruct c as [ct s0 r0]; simpl in *; subst ct.
    destruct mr; reflexivity.
Qed.

Lemma setters_idempotent_witness :
  set_card_type (PyCardType GUARANTEE) (non_standard_card GUARANTEE)
    = (Returned tt, non_standard_card GUARANTEE).
Proof.
  apply (proj1 (setters_idempotent (PyCardType GUARANTEE)
                  (standard_card HEART TWO) (non_standard_card GUARANTEE))).
  reflexivity.
Defined.

(** ** Display *)

(** What a reachable card displays, when it displays. *)
Lemma display_of_reachable c str :
  reachable c -> ToDisplayString c = Returned str ->
  (exists s r, c = standard_card s r /\
     str = CardRankTypes_name r ++ " of " ++ CardSuitTypes_value s) \/
  (exists t, t <> STANDARD /\ c = non_standard_card t /\
     str = CardTypes_value t).
Proof.
  intros Hc. unfold ToDisplayString.
  apply reachable_invariant in Hc as (t & s & r & -> & Hnull & Hs & Hr).
  destruct (CardTypes_eq_dec t STANDARD) as [-> | Hne].
  - destruct Hs as [-> | [ms ->]];
      [rewrite str_blank by auto; discriminate |].
    destruct Hr as [-> | [mr ->]];
      [rewrite str_blank by auto; discriminate |].
    rewrite str_standard; simpl; intros [= <-].
    left; exists ms, mr; split; reflexivity.
  - destruct (Hnull Hne) as [-> ->].
    rewrite (str_non_standard t Hne); simpl; intros [= <-].
    right; exists t; repeat split; assumption.
Qed.

Lemma standard_display_injective s1 r1 s2 r2 :
  CardRankTypes_name r1 ++ " of " ++ CardSuitTypes_value s1
  = CardRankTypes_name r2 ++ " of " ++ CardSuitTypes_value s2 ->
  s1 = s2 /\ r1 = r2.
Proof.
  destruct r1, r2; simpl; try discriminate;
    destruct s1, s2; simpl; try discriminate; intros _; split; reflexivity.
Qed.

Lemma standard_display_not_a_type_value s r t :
  CardRankTypes_name r ++ " of " ++ CardSuitTypes_value s
  <> CardTypes_value t.
Proof. destruct r, t; simpl; discriminate. Qed.

(** X13.  Setting the type of any card to JOKER or GUARANTEE and then
    displaying it returns the type's value, "joker" or "guarantee". *)
Theorem non_standard_card_displays_type_value c t :
  t <> STANDARD ->
  (set_card_type (PyCardType t) ;; __str__) c
  = (Returned (CardTypes_value t), non_standard_card t).
Proof. intros Hne; destruct t; [congruence | reflexivity ..]. Qed.

Lemma non_standard_card_displays_type_value_witness :
  (set_card_type (PyCardType JOKER) ;; __str__) (standard_card HEART ACE)
  = (Returned "joker", non_standard_card JOKER).
Proof.
  apply (non_standard_card_displays_type_value
           (standard_card HEART ACE) JOKER).
  discriminate.
Defined.

(** X14.  The display string identifies the card: two cards reachable by
    successful public calls that display the same string have the same
    type, suit and rank. *)
Theorem display_identifies_card c1 c2 str :
  reachable c1 -> reachable c2 ->
  ToDisplayString c1 = Returned str ->
  ToDisplayString c2 = Returned str ->
  c1 = c2.
Proof.
  intros H1 H2 D1 D2.
  destruct (display_of_reachable c1 str H1 D1)
    as [(s1 & r1 & -> & E1) | (t1 & N1 & -> & E1)];
    destruct (display_of_reachable c2 str H2 D2)
      as [(s2 & r2 & -> & E2) | (t2 & N2 & -> & E2)]; subst str.
  - apply standard_display_injective in E2 as [-> ->]; reflexivity.
  - exfalso.
    first [ exact (standard_display_not_a_type_value _ _ _ E2)
          | exact (standard_display_not_a_type_value _ _ _ (eq_sym E2)) ].
  - exfalso.
    first [ exact (standard_display_not_a_type_value _ _ _ E2)
          | exact (standard_display_not_a_type_value _ _ _ (eq_sym E2)) ].
  - destruct t1, t2; try reflexivity; discriminate E2.
Qed.

Lemma display_identifies_card_witness :
  standard_card SPADE KING = standard_card SPADE KING.
Proof.
  apply (display_identifies_card
           (standard_card SPADE KING) (standard_card SPADE KING)
           "KING of spade").
  - apply reach_Construct
      with (t := PyCardType STANDARD) (s := PySuit SPADE) (r := PyRank KING).
    reflexivity.
  - apply reach_set_rank
      with (v := PyRank KING) (c := standard_card SPADE TWO);
      [| reflexivity].
    apply reach_Construct
      with (t := PyCardType STANDARD) (s := PySuit SPADE) (r := PyRank TWO).
    reflexivity.
  - reflexivity.
  - reflexivity.
Defined.

(** ** The enumerations and the allowed lists *)

(** X15.  No enumeration has two members with the same value (so no
    member is an alias of another), and the rank values are exactly the
    integers 1 to 13: every rank has a value in that range and every
    integer of the range is the value of a rank. *)
Theorem enumeration_values_distinct :
  (forall t1 t2, CardTypes_value t1 = CardTypes_value t2 -> t1 = t2) /\
  (forall s1 s2,
      CardSuitTypes_value s1 = CardSuitTypes_value s2 -> s1 = s2) /\
  (forall r1 r2,
      CardRankTypes_value r1 = CardRankTypes_value r2 -> r1 = r2) /\
  (forall r, (1 <= CardRankTypes_value r <= 13)%Z) /\
  (forall z, (1 <= z <= 13)%Z -> exists r, CardRankTypes_value r = z).
Proof.
  repeat split.
  - intros [] []; simpl; intros H; try reflexivity; discriminate H.
  - intros [] []; simpl; intros H; try reflexivity; discriminate H.
  - intros [] []; simpl; intros H; try reflexivity; discriminate H.
  - destruct r; simpl; lia.
  - destruct r; simpl; lia.
  - intros z Hz.
    assert (Hcases : (z = 1 \/ z = 2 \/ z = 3 \/ z = 4 \/ z = 5 \/ z = 6 \/
                      z = 7 \/ z = 8 \/ z = 9 \/ z = 10 \/ z = 11 \/
                      z = 12 \/ z = 13)%Z) by lia.
    decompose [or] Hcases; subst z;
      [ exists ACE | exists TWO | exists THREE | exists FOUR | exists FIVE
      | exists SIX | exists SEVEN | exists EIGHT | exists NINE | exists TEN
      | exists JACK | exists QUEEN | exists KING ]; reflexivity.
Qed.

Lemma enumeration_values_distinct_witness :
  exists r, CardRankTypes_value r = 11%Z.
Proof.
  apply (proj2 (proj2 (proj2 (proj2 enumeration_values_distinct))) 11%Z).
  lia.
Defined.

(** X16.  Each allowed list accepts exactly the members of its
    enumeration and lists none twice: [val in ALLOWED_..] holds for every
    member, and for nothing else (not for [None], a string, an integer or
    a member of another enumeration). *)
Theorem allowed_lists_are_the_enumerations v :
  (py_in v ALLOWED_CARD_TYPES = true <-> is_CardType v) /\
  (py_in v ALLOWED_SUIT_TYPES = true <-> is_Suit v) /\
  (py_in v ALLOWED_RANK_TYPES = true <-> is_Rank v) /\
  NoDup ALLOWED_CARD_TYPES /\ NoDup ALLOWED_SUIT_TYPES /\
  NoDup ALLOWED_RANK_TYPES.
Proof.
  split; [| split; [| split; [| split; [| split]]]].
  - destruct (in_ALLOWED_CARD_TYPES v); split; intros H;
      auto; try discriminate H; contradiction.
  - destruct (in_ALLOWED_SUIT_TYPES v); split; intros H;
      auto; try discriminate H; contradiction.
  - destruct (in_ALLOWED_RANK_TYPES v); split; intros H;
      auto; try discriminate H; contradiction.
  - unfold ALLOWED_CARD_TYPES.
    repeat (constructor; [simpl; intuition discriminate |]); constructor.
  - unfold ALLOWED_SUIT_TYPES.
    repeat (constructor; [simpl; intuition discriminate |]); constructor.
  - unfold ALLOWED_RANK_TYPES.
    repeat (constructor; [simpl; intuition discriminate |]); constructor.
Qed.
